(** * Black-Cross mock backend: [backend/simple-server.py]

    A shallow embedding of the request handler class [BlackCrossHandler]
    (methods [do_GET], [do_POST], [do_OPTIONS]) together with the parts of
    the Python library whose results decide the control flow of the
    handlers, and the properties of the routing table proved over it.

    Conventions.
    - The request target and the header values reach the handler decoded
      as ISO-8859-1, one character per byte: a [string] holds them exactly.
    - A handler talks to the client through the methods of
      [BaseHTTPRequestHandler]; what a handler does is recorded as the
      list of those calls, in order ([call]).  What the library adds
      inside such a call (the [Server] and [Date] headers, the HTML page
      of [send_error], the access log) is below this interface.  Every
      such call is taken to return: a connection the client has reset,
      on which the library's writes raise [OSError], is not modelled.
    - Library functions whose full behaviour is outside the source
      ([bytes.decode], [json.loads], the authority checks of
      [urllib.parse], [repr]) are the fields of [PyRuntime]; the theorems
      of the handlers hold for every runtime.  What is written out
      ([int], [urlparse], the header lookup) follows CPython 3.11. *)

From Stdlib Require Import String Ascii List ZArith Bool Lia DecimalString.
From Stdlib Require DecimalNat Permutation.
From Stdlib Require Import Strings.Byte.
From Stdlib Require Floats.SpecFloat.
Import ListNotations.

Set Warnings "-register-all".

Local Open Scope string_scope.
Local Open Scope Z_scope.

(** ** Exceptions and results *)

(** An exception instance: its class name and [str(e)]. *)
Record exn : Type := Exn { exn_class : string; exn_str : string }.

Inductive result (A : Type) : Type :=
| Ok (a : A)
| Exc (e : exn).
Arguments Ok {A} a.
Arguments Exc {A} e.

Definition result_bind {A B} (r : result A) (k : A -> result B) : result B :=
  match r with
  | Ok a => k a
  | Exc e => Exc e
  end.

(** ** Python values, as [json.loads] returns them and [json.dumps] takes them *)

Inductive pyvalue : Type :=
| PNone
| PBool (b : bool)
| PInt (z : Z)
| PFloat (f : SpecFloat.spec_float)        (* a binary64 value *)
| PStr (s : string)
| PList (l : list pyvalue)
| PDict (d : list (string * pyvalue)).   (* insertion order, as a dict keeps it *)

(** [type(v).__name__] *)
Definition type_name (v : pyvalue) : string :=
  match v with
  | PNone => "NoneType"
  | PBool _ => "bool"
  | PInt _ => "int"
  | PFloat _ => "float"
  | PStr _ => "str"
  | PList _ => "list"
  | PDict _ => "dict"
  end.

(** [d.get(key, default)] on a dict *)
Fixpoint dict_get (d : list (string * pyvalue)) (key : string) (default : pyvalue)
  : pyvalue :=
  match d with
  | [] => default
  | (k, v) :: d' => if String.eqb k key then v else dict_get d' key default
  end.

(** [v.get(key, default)] on any value: only a dict has the attribute. *)
Definition py_get (v : pyvalue) (key : string) (default : pyvalue) : result pyvalue :=
  match v with
  | PDict d => Ok (dict_get d key default)
  | _ => Exc (Exn "AttributeError"
               ("'" ++ type_name v ++ "' object has no attribute 'get'"))
  end.

(** [v == s] for a str literal [s]: no other type compares equal to a str. *)
Definition py_eq_str (v : pyvalue) (s : string) : bool :=
  match v with
  | PStr t => String.eqb t s
  | _ => false
  end.

(** ** Strings: the [str] methods the handlers and [urllib.parse] use *)

Definition code (c : ascii) : Z := Z.of_nat (nat_of_ascii c).

Definition in_range (lo hi : Z) (c : ascii) : bool :=
  (lo <=? code c) && (code c <=? hi).

Definition is_ascii_alpha (c : ascii) : bool :=
  in_range 65 90 c || in_range 97 122 c.

Definition is_digit (c : ascii) : bool := in_range 48 57 c.

(** [c.lower()] on a character below 256: the ASCII capitals and the
    Latin-1 capitals 0xC0..0xDE (the multiplication sign 0xD7 apart) move
    up by 32, every other character is kept. *)
Definition chr_lower (c : ascii) : ascii :=
  if in_range 65 90 c || (in_range 192 222 c && negb (code c =? 215))
  then ascii_of_nat (nat_of_ascii c + 32)
  else c.

Fixpoint str_map (f : ascii -> ascii) (s : string) : string :=
  match s with
  | EmptyString => EmptyString
  | String c s' => String (f c) (str_map f s')
  end.

Definition str_lower : string -> string := str_map chr_lower.

Fixpoint str_all (p : ascii -> bool) (s : string) : bool :=
  match s with
  | EmptyString => true
  | String c s' => p c && str_all p s'
  end.

Fixpoint str_filter (p : ascii -> bool) (s : string) : string :=
  match s with
  | EmptyString => EmptyString
  | String c s' => if p c then String c (str_filter p s') else str_filter p s'
  end.

(** [c in s] *)
Fixpoint contains (c : ascii) (s : string) : bool :=
  match s with
  | EmptyString => false
  | String a s' => Ascii.eqb a c || contains c s'
  end.

(** [s.find(c)], [None] for -1 *)
Fixpoint str_find (c : ascii) (s : string) : option nat :=
  match s with
  | EmptyString => None
  | String a s' => if Ascii.eqb a c then Some 0%nat else option_map S (str_find c s')
  end.

(** [s.rfind(c)], [None] for -1 *)
Fixpoint str_rfind (c : ascii) (s : string) : option nat :=
  match s with
  | EmptyString => None
  | String a s' =>
      match str_rfind c s' with
      | Some i => Some (S i)
      | None => if Ascii.eqb a c then Some 0%nat else None
      end
  end.

(** [s[:n]] and [s[n:]] *)
Fixpoint str_take (n : nat) (s : string) : string :=
  match n, s with
  | S n', String c s' => String c (str_take n' s')
  | _, _ => EmptyString
  end.

Fixpoint str_drop (n : nat) (s : string) : string :=
  match n, s with
  | S n', String _ s' => str_drop n' s'
  | _, _ => s
  end.

(** [s.find(c, start)] *)
Definition str_find_from (c : ascii) (s : string) (start : nat) : option nat :=
  option_map (Nat.add start) (str_find c (str_drop start s)).

(** [s.lstrip(chars)] for a set of characters given as a predicate *)
Fixpoint str_lstrip (p : ascii -> bool) (s : string) : string :=
  match s with
  | EmptyString => EmptyString
  | String c s' => if p c then str_lstrip p s' else s
  end.

(** ** The runtime: library behaviour taken as given *)

Class PyRuntime : Type := {
  (** [repr(s)] of a str, as it appears in the messages of [int] *)
  repr : string -> string;
  (** [sys.get_int_max_str_digits()]: 4300 unless reconfigured, 0 for no limit *)
  int_max_str_digits : nat;
  (** [urllib.parse._check_bracketed_netloc], raising [ValueError] *)
  check_bracketed_netloc : string -> result unit;
  (** the NFKC test of [urllib.parse._checknetloc] on an authority that is
      not empty and not ASCII, raising [ValueError] *)
  checknetloc_nfkc : string -> result unit;
  (** [bytes.decode()] (UTF-8, strict), raising [UnicodeDecodeError] *)
  bytes_decode : list byte -> result string;
  (** [json.loads(s)] of a str, raising [json.JSONDecodeError] or another
      subclass of [Exception] *)
  json_loads : string -> result pyvalue
}.

(** ** [int(x)] for [x] a header value or [None] *)

(** White space around an integer literal: the ASCII white space of
    [Py_ISSPACE], and the two Unicode spaces below 256 (NEL, NBSP), which
    the conversion first turns into blanks. *)
Definition is_int_space (c : ascii) : bool :=
  in_range 9 13 c || (code c =? 32) || (code c =? 133) || (code c =? 160).

(** The digits of a literal, single underscores allowed between digits:
    the value, the number of digits and the text after the last digit;
    [None] when an underscore is misplaced or no digit is there. *)
Fixpoint scan_digits (s : string) (after_digit : bool) (acc : Z) (n : nat)
  : option (Z * nat * string) :=
  match s with
  | EmptyString => if after_digit then Some (acc, n, s) else None
  | String c s' =>
      if is_digit c then scan_digits s' true (10 * acc + (code c - 48)) (S n)
      else if Ascii.eqb c "_" then
        if after_digit then scan_digits s' false acc n else None
      else if after_digit then Some (acc, n, s) else None
  end.

Definition decimal_of_nat (n : nat) : string :=
  DecimalString.NilZero.string_of_uint (Nat.to_uint n).

Section Library.
Context {rt : PyRuntime}.

Definition invalid_literal (s : string) : exn :=
  Exn "ValueError" ("invalid literal for int() with base 10: " ++ repr s).

Definition exceeds_limit (digits : nat) : exn :=
  Exn "ValueError"
      ("Exceeds the limit (" ++ decimal_of_nat int_max_str_digits
       ++ " digits) for integer string conversion: value has "
       ++ decimal_of_nat digits
       ++ " digits; use sys.set_int_max_str_digits() to increase the limit").

(** [int(s)] for a str: leading white space, a sign, the digits, the
    length limit (checked above 640 digits), trailing white space. *)
Definition int_of_str (s : string) : result Z :=
  let body := str_lstrip is_int_space s in
  let '(negative, digits) :=
    match body with
    | String "-" r => (true, r)
    | String "+" r => (false, r)
    | _ => (false, body)
    end in
  match scan_digits digits false 0 0 with
  | None => Exc (invalid_literal s)
  | Some (v, n, rest) =>
      if (0 <? int_max_str_digits)%nat && (640 <? n)%nat
         && (int_max_str_digits <? n)%nat
      then Exc (exceeds_limit n)
      else if str_all is_int_space rest
           then Ok (if negative then - v else v)
           else Exc (invalid_literal s)
  end.

(** [int(x)] where [x] is what [self.headers[...]] returned. *)
Definition py_int (x : option string) : result Z :=
  match x with
  | None =>
      Exc (Exn "TypeError"
             "int() argument must be a string, a bytes-like object or a real number, not 'NoneType'")
  | Some s => int_of_str s
  end.

End Library.

(** ** [urllib.parse.urlparse(url).path] *)

(** [_WHATWG_C0_CONTROL_OR_SPACE]: the characters up to the blank *)
Definition is_c0_control_or_space (c : ascii) : bool := code c <=? 32.

(** [_UNSAFE_URL_BYTES_TO_REMOVE]: tab, carriage return, line feed *)
Definition is_unsafe_url_byte (c : ascii) : bool :=
  (code c =? 9) || (code c =? 13) || (code c =? 10).

(** [scheme_chars]: letters, digits, [+], [-], [.] *)
Definition is_scheme_char (c : ascii) : bool :=
  is_ascii_alpha c || is_digit c
  || Ascii.eqb c "+" || Ascii.eqb c "-" || Ascii.eqb c ".".

Definition is_ascii (c : ascii) : bool := code c <=? 127.

Definition uses_params : list string :=
  [""; "ftp"; "hdl"; "prospero"; "http"; "imap"; "https"; "shttp"; "rtsp";
   "rtspu"; "sip"; "sips"; "mms"; "sftp"; "tel"].

(** The scheme, when the text before the first colon is one: the pair
    [(scheme, url)] after [urlsplit]'s first step. *)
Definition split_scheme (url : string) : string * string :=
  match str_find ":" url, url with
  | Some (S i), String c0 _ =>
      if is_ascii_alpha c0 && str_all is_scheme_char (str_take (S i) url)
      then (str_lower (str_take (S i) url), str_drop (S (S i)) url)
      else (EmptyString, url)
  | _, _ => (EmptyString, url)
  end.

(** [_splitnetloc(url, start)]: the authority ends at the first of [/?#]. *)
Definition splitnetloc (url : string) (start : nat) : string * string :=
  let delim :=
    fold_left
      (fun delim c =>
         match str_find_from c url start with
         | Some wdelim => Nat.min delim wdelim
         | None => delim
         end)
      ["/"; "?"; "#"]%char (String.length url) in
  (str_drop start (str_take delim url), str_drop delim url).

(** [_splitparams(url)]: the text of the last segment before its first [;].
    [find] returning -1 in the second branch makes Python cut the last
    character ([url[:-1]]). *)
Definition splitparams (url : string) : string :=
  if contains "/" url then
    match str_find_from ";" url (match str_rfind "/" url with
                                 | Some r => r
                                 | None => 0%nat
                                 end) with
    | None => url
    | Some i => str_take i url
    end
  else
    match str_find ";" url with
    | Some i => str_take i url
    | None => str_take (String.length url - 1) url
    end.

Section UrlParse.
Context {rt : PyRuntime}.

(** [urlsplit(url)]: the components [(scheme, netloc, path)]; query and
    fragment are cut off and dropped. *)
Definition urlsplit (url : string) : result (string * string * string) :=
  let url := str_lstrip is_c0_control_or_space url in
  let url := str_filter (fun c => negb (is_unsafe_url_byte c)) url in
  let '(scheme, url) := split_scheme url in
  result_bind
    (if String.eqb (str_take 2 url) "//" then
       let '(netloc, url) := splitnetloc url 2 in
       if (contains "[" netloc && negb (contains "]" netloc))
          || (contains "]" netloc && negb (contains "[" netloc))
       then Exc (Exn "ValueError" "Invalid IPv6 URL")
       else
         result_bind
           (if contains "[" netloc && contains "]" netloc
            then check_bracketed_netloc netloc
            else Ok tt)
           (fun _ => Ok (netloc, url))
     else Ok (EmptyString, url))
    (fun '(netloc, url) =>
       let url := match str_find "#" url with
                  | Some i => str_take i url
                  | None => url
                  end in
       let url := match str_find "?" url with
                  | Some i => str_take i url
                  | None => url
                  end in
       result_bind
         (if String.eqb netloc EmptyString || str_all is_ascii netloc
          then Ok tt
          else checknetloc_nfkc netloc)
         (fun _ => Ok (scheme, netloc, url))).

(** [urlparse(url).path] *)
Definition urlparse_path (url : string) : result string :=
  result_bind (urlsplit url)
    (fun '(scheme, _, url) =>
       if existsb (String.eqb scheme) uses_params && contains ";" url
       then Ok (splitparams url)
       else Ok url).

End UrlParse.

(** ** Requests *)

(** What a handler reads of [self]: the request target [self.path], the
    parsed header lines [self.headers] in order, and [self.rfile.read],
    the read method of the connection's input stream. *)
Record request : Type := {
  path : string;
  headers : list (string * string);
  rfile_read : Z -> result (list byte)
}.

(** [headers[name]]: the value of the first header whose name matches
    without regard to case, [None] when there is none. *)
Fixpoint headers_get (hs : list (string * string)) (name : string) : option string :=
  match hs with
  | [] => None
  | (k, v) :: hs' =>
      if String.eqb (str_lower k) (str_lower name) then Some v
      else headers_get hs' name
  end.

(** A buffered reader over the bytes [data] of a connection that the
    client then closes, on a 64-bit machine: a length that is no
    [Py_ssize_t] or leaves no room for the bytes object is an
    [OverflowError], a negative one other than -1 a [ValueError];
    [read(-1)] gives all the bytes and [read(n)] at most [n] of them.
    Between these a length that the machine cannot allocate raises
    [MemoryError]; from which length on depends on the machine, and this
    reader, used for the sample requests only, does not say. *)
Definition reader_of (data : list byte) (n : Z) : result (list byte) :=
  if (n <? - 2 ^ 63) || (2 ^ 63 <=? n)
  then Exc (Exn "OverflowError" "cannot fit 'int' into an index-sized integer")
  else if n <? -1
  then Exc (Exn "ValueError" "read length must be non-negative or -1")
  else if n =? -1 then Ok data
  else if 2 ^ 63 - 33 <=? n then Exc (Exn "OverflowError" "byte string is too large")
  else Ok (firstn (Z.to_nat n) data).

(** ** Responses: the calls a handler makes on [self] *)

Inductive call : Type :=
| SendResponse (status : Z)                      (* self.send_response(code) *)
| SendHeader (keyword value : string)            (* self.send_header(k, v) *)
| EndHeaders                                     (* self.end_headers() *)
| WfileWrite (value : pyvalue)                   (* self.wfile.write(json.dumps(value).encode()) *)
| SendError (status : Z) (message : option string).  (* self.send_error(code[, message]) *)

(** A handler body: it appends to the calls made so far and returns a
    value or raises. *)
Definition handler (A : Type) : Type := list call -> result A * list call.

Definition ret {A} (a : A) : handler A := fun t => (Ok a, t).

Definition bind {A B} (m : handler A) (k : A -> handler B) : handler B :=
  fun t =>
    match m t with
    | (Ok a, t') => k a t'
    | (Exc e, t') => (Exc e, t')
    end.

(** The value or exception of a library call, with no call on [self]. *)
Definition lift {A} (r : result A) : handler A := fun t => (r, t).

Definition emit (c : call) : handler unit := fun t => (Ok tt, (t ++ [c])%list).

(** [try: body / except Exception as e: handle e] *)
Definition try_except {A} (body : handler A) (handle : exn -> handler A) : handler A :=
  fun t =>
    match body t with
    | (Ok a, t') => (Ok a, t')
    | (Exc e, t') => handle e t'
    end.

Declare Scope handler_scope.
Delimit Scope handler_scope with handler.
Notation "x <- m ;; k" := (bind m (fun x => k))
  (at level 61, m at next level, right associativity) : handler_scope.
Notation "m ;; k" := (bind m (fun _ => k))
  (at level 61, right associativity) : handler_scope.

Definition send_response (status : Z) : handler unit := emit (SendResponse status).
Definition send_header (keyword value : string) : handler unit :=
  emit (SendHeader keyword value).
Definition end_headers : handler unit := emit EndHeaders.
Definition wfile_write_json (value : pyvalue) : handler unit := emit (WfileWrite value).
Definition send_error (status : Z) (message : option string) : handler unit :=
  emit (SendError status message).

(** What one run of a handler method leaves: the calls made, and the
    exception that left the method, if one did. *)
Record outcome : Type := {
  sent : list call;
  raised : option exn
}.

Definition run (h : handler unit) : outcome :=
  let '(r, t) := h [] in
  {| sent := t;
     raised := match r with Ok _ => None | Exc e => Some e end |}.

(** The status of the response: the code of the first [send_response] or
    [send_error]. *)
Fixpoint status_of (t : list call) : option Z :=
  match t with
  | [] => None
  | SendResponse s :: _ => Some s
  | SendError s _ :: _ => Some s
  | _ :: t' => status_of t'
  end.

(** The value of the first header the handler sent under [keyword]. *)
Fixpoint header_of (t : list call) (keyword : string) : option string :=
  match t with
  | [] => None
  | SendHeader k v :: t' => if String.eqb k keyword then Some v else header_of t' keyword
  | _ :: t' => header_of t' keyword
  end.

(** The values written to [wfile], in order. *)
Fixpoint body_of (t : list call) : list pyvalue :=
  match t with
  | [] => []
  | WfileWrite v :: t' => v :: body_of t'
  | _ :: t' => body_of t'
  end.

(** The message given to [send_error], if that was called. *)
Fixpoint error_message_of (t : list call) : option (option string) :=
  match t with
  | [] => None
  | SendError _ m :: _ => Some m
  | _ :: t' => error_message_of t'
  end.

Definition status (o : outcome) : option Z := status_of (sent o).
Definition header (o : outcome) (keyword : string) : option string :=
  header_of (sent o) keyword.
Definition body (o : outcome) : list pyvalue := body_of (sent o).
Definition error_message (o : outcome) : option (option string) :=
  error_message_of (sent o).

(** ** The handler class *)

Module BlackCrossHandler.

Local Open Scope handler_scope.

Definition modules : list string :=
  ["threat-intelligence"; "incident-response"; "vulnerability-management";
   "ioc-management"; "threat-actors"; "threat-feeds"; "siem";
   "threat-hunting"; "risk-assessment"; "collaboration"; "reporting";
   "malware-analysis"; "dark-web"; "compliance"; "automation"].

(** The three header lines every JSON reply starts with. *)
Definition json_headers : handler unit :=
  send_response 200 ;;
  send_header "Content-Type" "application/json" ;;
  send_header "Access-Control-Allow-Origin" "*" ;;
  end_headers.

Definition health_response (timestamp : string) : pyvalue :=
  PDict [("status", PStr "operational");
         ("timestamp", PStr timestamp);
         ("services", PDict [("database", PStr "connected");
                             ("redis", PStr "connected")])].

Definition module_response (module : string) : pyvalue :=
  PDict [("success", PBool true);
         ("data", PList []);
         ("total", PInt 0);
         ("module", PStr module)].

Definition module_health_response (module : string) : pyvalue :=
  PDict [("module", PStr module);
         ("status", PStr "operational");
         ("version", PStr "1.0.0")].

(** The loop [for module in modules] of [do_GET] with the statement after
    it: the first module whose pattern matches answers and returns; when
    the list is exhausted the 404 follows. *)
Fixpoint module_endpoints (path : string) (ms : list string) : handler unit :=
  match ms with
  | [] => send_error 404 None
  | module :: rest =>
      if String.eqb path ("/api/v1/" ++ module)
         || String.eqb path ("/api/v1/" ++ module ++ "/")
      then
        json_headers ;;
        wfile_write_json (module_response module)
      else if String.eqb path ("/api/v1/" ++ module ++ "/health")
      then
        json_headers ;;
        wfile_write_json (module_health_response module)
      else module_endpoints path rest
  end.

Definition login_success : pyvalue :=
  PDict [("success", PBool true);
         ("token", PStr "mock-jwt-token");
         ("user", PDict [("id", PStr "1");
                         ("email", PStr "admin@blackcross.com");
                         ("role", PStr "admin")])].

Definition login_failure : pyvalue :=
  PDict [("success", PBool false);
         ("error", PStr "Invalid credentials")].

Section Methods.
Context {rt : PyRuntime}.

(** [now] is what [datetime.now().isoformat()] returns during the call. *)
Definition do_GET (now : string) (self : request) : handler unit :=
  path <- lift (urlparse_path (path self)) ;;
  if String.eqb path "/health" || String.eqb path "/api/v1/health"
  then
    json_headers ;;
    wfile_write_json (health_response now)
  else module_endpoints path modules.

Definition do_POST (self : request) : handler unit :=
  if String.eqb (path self) "/api/v1/auth/login"
  then
    content_length <- lift (py_int (headers_get (headers self) "Content-Length")) ;;
    post_data <- lift (rfile_read self content_length) ;;
    try_except
      (data <- lift (result_bind (bytes_decode post_data) json_loads) ;;
       email <- lift (py_get data "email" (PStr "")) ;;
       password <- lift (py_get data "password" (PStr "")) ;;
       json_headers ;;
       wfile_write_json
         (if py_eq_str email "admin@blackcross.com" && py_eq_str password "admin"
          then login_success
          else login_failure))
      (fun e => send_error 400 (Some ("Bad Request: " ++ exn_str e)))
  else send_error 404 None.

Definition do_OPTIONS (self : request) : handler unit :=
  send_response 200 ;;
  send_header "Access-Control-Allow-Origin" "*" ;;
  send_header "Access-Control-Allow-Methods" "GET, POST, OPTIONS" ;;
  send_header "Access-Control-Allow-Headers" "Content-Type" ;;
  end_headers.

Inductive method : Type := GET | POST | OPTIONS.

(** One request served: the method named [do_<command>] runs on a fresh
    handler object. *)
Definition handle_request (now : string) (command : method) (self : request) : outcome :=
  run match command with
      | GET => do_GET now self
      | POST => do_POST self
      | OPTIONS => do_OPTIONS self
      end.

End Methods.

End BlackCrossHandler.

(** ** The routes, as predicates on a path *)

Definition login_path : string := "/api/v1/auth/login".

(** [path] is the list or the health endpoint of [module]. *)
Definition module_route (path module : string) : bool :=
  String.eqb path ("/api/v1/" ++ module)
  || String.eqb path ("/api/v1/" ++ module ++ "/")
  || String.eqb path ("/api/v1/" ++ module ++ "/health").

(** [path] is one of the paths [do_GET] answers with a 200. *)
Definition is_get_route (path : string) : bool :=
  String.eqb path "/health" || String.eqb path "/api/v1/health"
  || existsb (module_route path) BlackCrossHandler.modules.

(** The request target with its query string removed, in the words of
    the specification: everything before the first question mark.  It is
    compared below with [urlparse_path], which is what [do_GET] uses. *)
Definition path_without_query (target : string) : string :=
  match str_find "?" target with
  | Some i => str_take i target
  | None => target
  end.

(** The reply of a JSON endpoint: the calls of [json_headers] and the
    write of [value]. *)
Definition json_reply (value : pyvalue) : list call :=
  [SendResponse 200;
   SendHeader "Content-Type" "application/json";
   SendHeader "Access-Control-Allow-Origin" "*";
   EndHeaders;
   WfileWrite value].

Definition error_reply (code : Z) (message : option string) : list call :=
  [SendError code message].

Definition completed (calls : list call) : outcome :=
  {| sent := calls; raised := None |}.




(** ** A sample runtime and sample requests, to run the handlers on *)

Module Sample.

Definition quote : string := String "034"%char EmptyString.

Definition quoted (s : string) : string := quote ++ s ++ quote.

Definition credentials_text (email password : string) : string :=
  "{" ++ quoted "email" ++ ": " ++ quoted email ++ ", "
      ++ quoted "password" ++ ": " ++ quoted password ++ "}".

Definition credentials (email password : string) : pyvalue :=
  PDict [("email", PStr email); ("password", PStr password)].

(** The documents this runtime's decoder knows. *)
Definition documents : list (string * pyvalue) :=
  [(credentials_text "admin@blackcross.com" "admin",
    credentials "admin@blackcross.com" "admin");
   (credentials_text "x" "y", credentials "x" "y");
   ("{}", PDict []);
   ("[]", PList []);
   ("null", PNone)].

Fixpoint lookup (ds : list (string * pyvalue)) (s : string) : result pyvalue :=
  match ds with
  | [] => Exc (Exn "JSONDecodeError" "Expecting value: line 1 column 1 (char 0)")
  | (text, v) :: ds' => if String.eqb text s then Ok v else lookup ds' s
  end.

Definition is_ascii_byte (b : byte) : bool := (Byte.to_nat b <? 128)%nat.

(** A runtime that decodes ASCII bodies and the documents above. *)
Definition runtime : PyRuntime :=
  {| repr := fun s => "'" ++ s ++ "'";
     int_max_str_digits := 4300;
     check_bracketed_netloc := fun _ => Ok tt;
     checknetloc_nfkc := fun _ => Ok tt;
     bytes_decode := fun bs =>
       if forallb is_ascii_byte bs then Ok (string_of_list_byte bs)
       else Exc (Exn "UnicodeDecodeError" "'utf-8' codec can't decode bytes");
     json_loads := lookup documents |}.

(** A request for [target] with the given header lines and body bytes. *)
Definition request_of (target : string) (hs : list (string * string)) (content : string)
  : request :=
  {| path := target; headers := hs; rfile_read := reader_of (list_byte_of_string content) |}.

Definition login_request (content_length content : string) : request :=
  request_of login_path [("Content-Length", content_length)] content.

Definition clock : string := "2024-05-01T12:00:00.000000".

End Sample.

(** ** What the guarded block of [do_POST] leaves, by the decoded body *)

(** The credential test of [do_POST] on a decoded object, missing keys
    reading as the empty string. *)
Definition accepted (data : list (string * pyvalue)) : Prop :=
  dict_get data "email" (PStr "") = PStr "admin@blackcross.com"
  /\ dict_get data "password" (PStr "") = PStr "admin".

Definition acceptedb (data : list (string * pyvalue)) : bool :=
  py_eq_str (dict_get data "email" (PStr "")) "admin@blackcross.com"
  && py_eq_str (dict_get data "password" (PStr "")) "admin".

Definition no_get_attribute (v : pyvalue) : string :=
  "'" ++ type_name v ++ "' object has no attribute 'get'".

Definition login_outcome (decoded : result pyvalue) : outcome :=
  match decoded with
  | Exc e => completed (error_reply 400 (Some ("Bad Request: " ++ exn_str e)))
  | Ok (PDict data) =>
      completed (json_reply (if acceptedb data then BlackCrossHandler.login_success
                             else BlackCrossHandler.login_failure))
  | Ok v => completed (error_reply 400 (Some ("Bad Request: " ++ no_get_attribute v)))
  end.

Definition escaped (e : exn) : outcome := {| sent := []; raised := Some e |}.

(** ** Further vocabulary for the properties of the handlers *)

(** [url.split(c, 1)[0]] guarded by [c in url], as [urlsplit] cuts the
    fragment and the query off: the text before the first [c], or all of
    it. *)
Definition cut_at (c : ascii) (url : string) : string :=
  match str_find c url with
  | Some i => str_take i url
  | None => url
  end.

(** A request target in origin form, as [http.server] hands it over: it
    starts with one slash (never two: the server collapses them) and, the
    request line being split at white space, holds no tab, carriage
    return or line feed. *)
Definition origin_form (target : string) : bool :=
  match target with
  | String c0 rest =>
      Ascii.eqb c0 "/"
      && match rest with
         | String c1 _ => negb (Ascii.eqb c1 "/")
         | EmptyString => true
         end
      && str_all (fun c => negb (is_unsafe_url_byte c)) target
  | EmptyString => false
  end.

(** The characters that end the path component of a target. *)
Definition is_path_end (c : ascii) : bool :=
  Ascii.eqb c "?" || Ascii.eqb c "#" || Ascii.eqb c ";".

(** Header lines, then [end_headers], then at most one write. *)
Fixpoint headers_then_body (t : list call) : bool :=
  match t with
  | SendHeader _ _ :: t' => headers_then_body t'
  | EndHeaders :: [] => true
  | EndHeaders :: [WfileWrite _] => true
  | _ => false
  end.

(** The calls of exactly one response: a single [send_error], or
    [send_response] followed by the headers and the body in order. *)
Definition well_formed (t : list call) : bool :=
  match t with
  | [SendError _ _] => true
  | SendResponse _ :: t' => headers_then_body t'
  | _ => false
  end.

(** [key in d] for a dict *)
Definition has_key (d : list (string * pyvalue)) (key : string) : bool :=
  existsb (fun kv => String.eqb (fst kv) key) d.

(** ** [run_server]: the listening port *)

(** [os.environ.get(key)] on the environment given as its entries, the
    values as their characters (all below 256 here). *)
Fixpoint environ_get (environ : list (string * string)) (key : string) : option string :=
  match environ with
  | [] => None
  | (k, v) :: environ' =>
      if String.eqb k key then Some v else environ_get environ' key
  end.

(** [port = int(os.environ.get('PORT', 8080))]: the text of [PORT]
    converted, or the integer default converted to itself. *)
Definition run_server_port {rt : PyRuntime} (environ : list (string * string))
  : result Z :=
  match environ_get environ "PORT" with
  | Some text => int_of_str text
  | None => Ok 8080
  end.

(** ** The state of the process that outlives a request *)

(** The handler class defines no attribute and the module no global, and
    a handler object serves one request.  What a handler reaches that
    outlives it is inside the library: [urlsplit] is wrapped in
    [functools.lru_cache(typed=True)], a memo of its last 128 distinct
    calls, most recently used first here.  [urlparse] always passes the
    same [scheme] and [allow_fragments], so the key is the url. *)
Definition split_result : Type := (string * string * string)%type.

Definition lru_cache : Type := list (string * split_result).

Definition lru_maxsize : nat := 128.

Fixpoint cache_lookup (cache : lru_cache) (url : string) : option split_result :=
  match cache with
  | [] => None
  | (k, v) :: cache' => if String.eqb k url then Some v else cache_lookup cache' url
  end.

Fixpoint cache_remove (cache : lru_cache) (url : string) : lru_cache :=
  match cache with
  | [] => []
  | (k, v) :: cache' =>
      if String.eqb k url then cache' else (k, v) :: cache_remove cache' url
  end.

(** The process state a handler can change. *)
Record process : Type := { urlsplit_cache : lru_cache }.

(** The process as [run_server] starts it. *)
Definition started : process := {| urlsplit_cache := [] |}.

Section Process.
Context {rt : PyRuntime}.

(** [urlsplit] through its memo: a hit returns the stored result and
    makes the entry the most recent; a miss runs the function, stores a
    result (dropping the least recent entry of a full cache) and stores
    nothing when the function raises. *)
Definition urlsplit_cached (cache : lru_cache) (url : string)
  : result split_result * lru_cache :=
  match cache_lookup cache url with
  | Some v => (Ok v, (url, v) :: cache_remove cache url)
  | None =>
      match urlsplit url with
      | Ok v => (Ok v, firstn lru_maxsize ((url, v) :: cache))
      | Exc e => (Exc e, cache)
      end
  end.

(** [urlparse(url).path], the split going through the memo. *)
Definition urlparse_path_in (cache : lru_cache) (url : string)
  : result string * lru_cache :=
  let '(split, cache') := urlsplit_cached cache url in
  (result_bind split
     (fun '(scheme, _, url) =>
        if existsb (String.eqb scheme) uses_params && contains ";" url
        then Ok (splitparams url)
        else Ok url),
   cache').

(** [do_GET] in a process: the handler body and the memo it leaves. *)
Definition do_GET_in (now : string) (self : request) (cache : lru_cache)
  : handler unit * lru_cache :=
  let '(parsed, cache') := urlparse_path_in cache (path self) in
  ((path <- lift parsed ;;
    if String.eqb path "/health" || String.eqb path "/api/v1/health"
    then
      BlackCrossHandler.json_headers ;;
      wfile_write_json (BlackCrossHandler.health_response now)
    else BlackCrossHandler.module_endpoints path BlackCrossHandler.modules)%handler,
   cache').

(** One request served in a process: the outcome and the process after
    it.  [do_POST] and [do_OPTIONS] call nothing that keeps state. *)
Definition handle_request_in
    (w : process) (now : string) (command : BlackCrossHandler.method) (self : request)
  : outcome * process :=
  match command with
  | BlackCrossHandler.GET =>
      let '(h, cache') := do_GET_in now self (urlsplit_cache w) in
      (run h, {| urlsplit_cache := cache' |})
  | BlackCrossHandler.POST => (run (BlackCrossHandler.do_POST self), w)
  | BlackCrossHandler.OPTIONS => (run (BlackCrossHandler.do_OPTIONS self), w)
  end.

(** [serve_forever] over the requests that arrive, each with the clock
    reading of its moment: the process state is handed from one request
    to the next. *)
Fixpoint serve_from (w : process)
    (arrivals : list (string * BlackCrossHandler.method * request))
  : list outcome * process :=
  match arrivals with
  | [] => ([], w)
  | (now, command, self) :: arrivals' =>
      let '(o, w') := handle_request_in w now command self in
      let '(os, w'') := serve_from w' arrivals' in
      (o :: os, w'')
  end.

(** The process after the server, freshly started, has served [history]. *)
Definition process_after
    (history : list (string * BlackCrossHandler.method * request)) : process :=
  snd (serve_from started history).


End Process.

(** * Properties *)

Import BlackCrossHandler.

Lemma py_eq_str_true (v : pyvalue) (s : string) :
  py_eq_str v s = true <-> v = PStr s.
Proof.
  destruct v; simpl; try (split; [discriminate | intros H; discriminate H]).
  rewrite String.eqb_eq. split; [intros -> | intros [= ->]]; reflexivity.
Qed.

Lemma acceptedb_true (data : list (string * pyvalue)) :
  acceptedb data = true <-> accepted data.
Proof.
  unfold acceptedb, accepted.
  now rewrite andb_true_iff, !py_eq_str_true.
Qed.

Lemma login_replies_differ : login_success <> login_failure.
Proof. discriminate. Qed.

(** The module loop answers 404 when no pattern of the list matches. *)
Lemma module_endpoints_no_route (p : string) (ms : list string) :
  existsb (module_route p) ms = false ->
  module_endpoints p ms [] = (Ok tt, error_reply 404 None).
Proof.
  induction ms as [|m ms IH]; cbn [module_endpoints existsb]; intros H.
  - reflexivity.
  - apply orb_false_elim in H as [Hm Hms].
    unfold module_route in Hm.
    apply orb_false_elim in Hm as [Hm Hhealth].
    rewrite Hm, Hhealth. auto.
Qed.

(** The module loop ends in the 404 or in the JSON reply of one module. *)
Lemma module_endpoints_shape (p : string) (ms : list string) :
  module_endpoints p ms [] = (Ok tt, error_reply 404 None)
  \/ exists v, module_endpoints p ms [] = (Ok tt, json_reply v).
Proof.
  induction ms as [|m ms IH]; cbn [module_endpoints].
  - now left.
  - destruct (_ || _).
    + right. now exists (module_response m).
    + destruct (String.eqb _ _); [|exact IH].
      right. now exists (module_health_response m).
Qed.

Section Properties.
Context {rt : PyRuntime}.

(** [do_GET] once the target is parsed. *)
Lemma do_GET_parsed (now : string) (self : request) (p : string) :
  urlparse_path (path self) = Ok p ->
  run (do_GET now self) =
  if String.eqb p "/health" || String.eqb p "/api/v1/health"
  then completed (json_reply (health_response now))
  else run (module_endpoints p modules).
Proof.
  intros Hp. unfold run, do_GET, bind, lift. rewrite Hp.
  destruct (_ || _); reflexivity.
Qed.

Lemma do_GET_unparsed (now : string) (self : request) (e : exn) :
  urlparse_path (path self) = Exc e ->
  run (do_GET now self) = escaped e.
Proof.
  intros Hp. unfold run, do_GET, bind, lift. now rewrite Hp.
Qed.

(** [do_POST], branch by branch. *)
Lemma do_POST_cases (self : request) :
  run (do_POST self) =
  if String.eqb (path self) login_path then
    match py_int (headers_get (headers self) "Content-Length") with
    | Exc e => escaped e
    | Ok content_length =>
        match rfile_read self content_length with
        | Exc e => escaped e
        | Ok post_data => login_outcome (result_bind (bytes_decode post_data) json_loads)
        end
    end
  else completed (error_reply 404 None).
Proof.
  unfold run, do_POST, login_path.
  destruct (String.eqb _ _); [|reflexivity].
  unfold bind at 1, lift at 1.
  destruct (py_int _) as [n|e]; [|reflexivity].
  unfold bind at 1, lift at 1.
  destruct (rfile_read self n) as [post_data|e]; [|reflexivity].
  unfold try_except, bind at 1, lift at 1.
  destruct (result_bind _ _) as [v|e]; [|reflexivity].
  destruct v; reflexivity.
Qed.

Lemma do_POST_login (self : request) (content_length : Z) (post_data : list byte) :
  path self = login_path ->
  py_int (headers_get (headers self) "Content-Length") = Ok content_length ->
  rfile_read self content_length = Ok post_data ->
  run (do_POST self) = login_outcome (result_bind (bytes_decode post_data) json_loads).
Proof.
  intros Hpath Hlen Hread.
  now rewrite do_POST_cases, Hpath, String.eqb_refl, Hlen, Hread.
Qed.

(** *** Login *)

(** C1: a POST to /api/v1/auth/login whose body decodes to a JSON object
    is answered with status 200; the body is the success object (token
    [mock-jwt-token] and the user record) exactly when the object's [email]
    is [admin@blackcross.com] and its [password] is [admin], a missing key
    reading as the empty string, and the [Invalid credentials] object
    otherwise.  The body is the one the handler read: the
    [Content-Length] header gave a length and the read returned. *)
Theorem login_reply
    (self : request) (content_length : Z) (post_data : list byte)
    (data : list (string * pyvalue)) :
  path self = "/api/v1/auth/login" ->
  py_int (headers_get (headers self) "Content-Length") = Ok content_length ->
  rfile_read self content_length = Ok post_data ->
  result_bind (bytes_decode post_data) json_loads = Ok (PDict data) ->
  status (run (do_POST self)) = Some 200
  /\ raised (run (do_POST self)) = None
  /\ (accepted data ->
      run (do_POST self) =
      completed (json_reply
        (PDict [("success", PBool true);
                ("token", PStr "mock-jwt-token");
                ("user", PDict [("id", PStr "1");
                                ("email", PStr "admin@blackcross.com");
                                ("role", PStr "admin")])])))
  /\ (~ accepted data ->
      run (do_POST self) =
      completed (json_reply
        (PDict [("success", PBool false);
                ("error", PStr "Invalid credentials")])))
  /\ (body (run (do_POST self)) = [login_success] <-> accepted data).
Proof.
  intros Hpath Hlen Hread Hdata.
  rewrite (do_POST_login self content_length post_data Hpath Hlen Hread), Hdata.
  unfold login_outcome.
  destruct (acceptedb data) eqn:Hacc.
  - apply acceptedb_true in Hacc.
    split; [reflexivity|]. split; [reflexivity|].
    split; [reflexivity|]. split; [intros Hno; now destruct Hno|].
    split; [intros _; exact Hacc | reflexivity].
  - assert (Hno : ~ accepted data).
    { intros H. apply acceptedb_true in H. congruence. }
    split; [reflexivity|]. split; [reflexivity|].
    split; [intros H; now destruct Hno|]. split; [reflexivity|].
    split; [intros H; discriminate H | intros H; now destruct Hno].
Qed.

(** C5: a POST to /api/v1/auth/login whose body does not decode (the
    bytes are not UTF-8, or the text is not JSON) is answered with status
    400, and the message of the error is [Bad Request: ] followed by the
    text of the exception the decoding raised. *)
Theorem login_undecodable_body
    (self : request) (content_length : Z) (post_data : list byte) (e : exn) :
  path self = "/api/v1/auth/login" ->
  py_int (headers_get (headers self) "Content-Length") = Ok content_length ->
  rfile_read self content_length = Ok post_data ->
  result_bind (bytes_decode post_data) json_loads = Exc e ->
  run (do_POST self) = completed [SendError 400 (Some ("Bad Request: " ++ exn_str e))]
  /\ status (run (do_POST self)) = Some 400
  /\ error_message (run (do_POST self)) = Some (Some ("Bad Request: " ++ exn_str e)).
Proof.
  intros Hpath Hlen Hread Hdata.
  rewrite (do_POST_login self content_length post_data Hpath Hlen Hread), Hdata.
  repeat split.
Qed.

(** C10: a POST to /api/v1/auth/login whose body is valid JSON but not an
    object (an array, a string, a number, a boolean, null) is answered
    with status 400 and not with a 200: [data.get] raises [AttributeError]
    inside the guarded block, and its text is the message. *)
Theorem login_body_not_an_object
    (self : request) (content_length : Z) (post_data : list byte) (v : pyvalue) :
  path self = "/api/v1/auth/login" ->
  py_int (headers_get (headers self) "Content-Length") = Ok content_length ->
  rfile_read self content_length = Ok post_data ->
  result_bind (bytes_decode post_data) json_loads = Ok v ->
  (forall data, v <> PDict data) ->
  run (do_POST self) =
  completed [SendError 400
               (Some ("Bad Request: '" ++ type_name v ++ "' object has no attribute 'get'"))]
  /\ status (run (do_POST self)) = Some 400
  /\ body (run (do_POST self)) = [].
Proof.
  intros Hpath Hlen Hread Hdata Hv.
  rewrite (do_POST_login self content_length post_data Hpath Hlen Hread), Hdata.
  destruct v; try (repeat split; reflexivity).
  now destruct (Hv d).
Qed.

(** C3: the failing inputs.  A POST to /api/v1/auth/login with no
    [Content-Length] header leaves [do_POST] with a [TypeError], and one
    whose [Content-Length] is not a number with a [ValueError]; in both
    cases nothing has been sent: the conversion stands before the guarded
    block, whose handler is the only place the method answers 400. *)
Theorem login_content_length_raises :
  run (do_POST (Sample.request_of "/api/v1/auth/login" [] "{}")) =
  escaped (Exn "TypeError"
             "int() argument must be a string, a bytes-like object or a real number, not 'NoneType'")
  /\ run (do_POST (Sample.request_of "/api/v1/auth/login"
                     [("Content-Length", "abc")] "{}")) =
     escaped (Exn "ValueError" ("invalid literal for int() with base 10: " ++ repr "abc")).
Proof. split; reflexivity. Qed.

(** *** GET *)

(** C2: for each of the fifteen module names, a GET whose target is
    /api/v1/{module} or /api/v1/{module}/ is answered with status 200 and
    the body [{success: true, data: [], total: 0, module: <the name>}]. *)
Theorem module_list_reply (now : string) (self : request) (module : string) :
  In module modules ->
  path self = "/api/v1/" ++ module \/ path self = "/api/v1/" ++ module ++ "/" ->
  run (do_GET now self) =
  completed (json_reply (PDict [("success", PBool true);
                                ("data", PList []);
                                ("total", PInt 0);
                                ("module", PStr module)]))
  /\ status (run (do_GET now self)) = Some 200.
Proof.
  intros Hin Hpath.
  assert (Hp : urlparse_path (path self) = Ok (path self)).
  { unfold modules in Hin. cbn [In] in Hin.
    repeat (destruct Hin as [<- | Hin];
            [destruct Hpath as [-> | ->]; vm_compute; reflexivity |]).
    destruct Hin. }
  rewrite (do_GET_parsed now self _ Hp).
  unfold modules in Hin. cbn [In] in Hin.
  repeat (destruct Hin as [<- | Hin];
          [destruct Hpath as [-> | ->]; split; vm_compute; reflexivity |]).
  destruct Hin.
Qed.

(** C7: for each of the fifteen module names, a GET of
    /api/v1/{module}/health is answered with status 200 and the body
    [{module: <the name>, status: operational, version: 1.0.0}]. *)
Theorem module_health_reply (now : string) (self : request) (module : string) :
  In module modules ->
  path self = "/api/v1/" ++ module ++ "/health" ->
  run (do_GET now self) =
  completed (json_reply (PDict [("module", PStr module);
                                ("status", PStr "operational");
                                ("version", PStr "1.0.0")]))
  /\ status (run (do_GET now self)) = Some 200.
Proof.
  intros Hin Hpath.
  assert (Hp : urlparse_path (path self) = Ok (path self)).
  { unfold modules in Hin. cbn [In] in Hin. rewrite Hpath.
    repeat (destruct Hin as [<- | Hin]; [vm_compute; reflexivity |]).
    destruct Hin. }
  rewrite (do_GET_parsed now self _ Hp), Hpath.
  unfold modules in Hin. cbn [In] in Hin.
  repeat (destruct Hin as [<- | Hin]; [split; vm_compute; reflexivity |]).
  destruct Hin.
Qed.

(** C6, as the code has it: a GET whose target parses and whose path
    component, as [urlparse] returns it (scheme, authority, the last
    segment's parameters, query and fragment cut off), is none of /health,
    /api/v1/health and the three patterns of the fifteen modules is
    answered 404; and a POST whose target is not exactly
    /api/v1/auth/login is answered 404. *)
Theorem unrouted_not_found (now : string) (self : request) :
  (forall p, urlparse_path (path self) = Ok p ->
             is_get_route p = false ->
             handle_request now GET self = completed [SendError 404 None]
             /\ status (handle_request now GET self) = Some 404)
  /\ (path self <> "/api/v1/auth/login" ->
      handle_request now POST self = completed [SendError 404 None]
      /\ status (handle_request now POST self) = Some 404).
Proof.
  split.
  - intros p Hp Hroute. unfold handle_request.
    rewrite (do_GET_parsed now self p Hp).
    unfold is_get_route in Hroute.
    apply orb_false_elim in Hroute as [Hhealth Hmodules].
    rewrite Hhealth. unfold run.
    rewrite (module_endpoints_no_route p modules Hmodules).
    split; reflexivity.
  - intros Hpath. unfold handle_request.
    rewrite do_POST_cases.
    apply String.eqb_neq in Hpath. unfold login_path. rewrite Hpath.
    split; reflexivity.
Qed.

(** *** OPTIONS and the headers of a 200 *)

(** C8: every OPTIONS request, whatever its target, is answered with
    status 200, no body, and the headers [Access-Control-Allow-Origin: *],
    [Access-Control-Allow-Methods: GET, POST, OPTIONS] and
    [Access-Control-Allow-Headers: Content-Type]. *)
Theorem options_reply (self : request) :
  run (do_OPTIONS self) =
  completed [SendResponse 200;
             SendHeader "Access-Control-Allow-Origin" "*";
             SendHeader "Access-Control-Allow-Methods" "GET, POST, OPTIONS";
             SendHeader "Access-Control-Allow-Headers" "Content-Type";
             EndHeaders]
  /\ status (run (do_OPTIONS self)) = Some 200
  /\ body (run (do_OPTIONS self)) = []
  /\ header (run (do_OPTIONS self)) "Access-Control-Allow-Origin" = Some "*"
  /\ header (run (do_OPTIONS self)) "Access-Control-Allow-Methods"
     = Some "GET, POST, OPTIONS"
  /\ header (run (do_OPTIONS self)) "Access-Control-Allow-Headers"
     = Some "Content-Type".
Proof. repeat split. Qed.

(** C4, as the code has it: every response with status 200 carries
    [Access-Control-Allow-Origin: *]; with it goes
    [Content-Type: application/json] when the request is a GET or a POST,
    and no [Content-Type] header when it is an OPTIONS. *)
Theorem ok_reply_headers (now : string) (command : method) (self : request) :
  status (handle_request now command self) = Some 200 ->
  header (handle_request now command self) "Access-Control-Allow-Origin" = Some "*"
  /\ header (handle_request now command self) "Content-Type"
     = match command with
       | OPTIONS => None
       | GET | POST => Some "application/json"
       end.
Proof.
  destruct command; unfold handle_request.
  - destruct (urlparse_path (path self)) as [p|e] eqn:Hp.
    + rewrite (do_GET_parsed now self p Hp).
      destruct (_ || _); [intros _; split; reflexivity|].
      unfold run.
      destruct (module_endpoints_shape p modules) as [-> | [v ->]].
      * discriminate.
      * intros _; split; reflexivity.
    + rewrite (do_GET_unparsed now self e Hp). discriminate.
  - rewrite do_POST_cases.
    destruct (String.eqb _ _); [|discriminate].
    destruct (py_int _) as [n|e]; [|discriminate].
    destruct (rfile_read self n) as [post_data|e]; [|discriminate].
    destruct (result_bind _ _) as [v|e]; [|discriminate].
    destruct v; try discriminate.
    intros _; split; reflexivity.
  - intros _; split; reflexivity.
Qed.

End Properties.

(** ** The theorems at sample requests *)

Lemma login_reply_witness :
  let self := Sample.login_request "54"
                (Sample.credentials_text "admin@blackcross.com" "admin") in
  accepted [("email", PStr "admin@blackcross.com"); ("password", PStr "admin")]
  /\ status (run (do_POST (rt := Sample.runtime) self)) = Some 200
  /\ body (run (do_POST (rt := Sample.runtime) self)) = [login_success].
Proof.
  intros self.
  assert (Hacc : accepted [("email", PStr "admin@blackcross.com");
                           ("password", PStr "admin")])
    by (split; reflexivity).
  destruct (login_reply (rt := Sample.runtime) self 54
              (list_byte_of_string
                 (Sample.credentials_text "admin@blackcross.com" "admin"))
              [("email", PStr "admin@blackcross.com"); ("password", PStr "admin")]
              eq_refl eq_refl eq_refl eq_refl)
    as (Hstatus & _ & _ & _ & Hbody).
  split; [exact Hacc|]. split; [exact Hstatus|].
  apply Hbody, Hacc.
Defined.

Lemma login_undecodable_body_witness :
  result_bind (bytes_decode (PyRuntime := Sample.runtime) (list_byte_of_string "xyz"))
              (json_loads (PyRuntime := Sample.runtime))
  = Exc (Exn "JSONDecodeError" "Expecting value: line 1 column 1 (char 0)")
  /\ run (do_POST (rt := Sample.runtime) (Sample.login_request "3" "xyz"))
     = completed [SendError 400
                    (Some "Bad Request: Expecting value: line 1 column 1 (char 0)")].
Proof.
  split; [reflexivity|].
  apply (login_undecodable_body (rt := Sample.runtime)
           (Sample.login_request "3" "xyz") 3 (list_byte_of_string "xyz")
           (Exn "JSONDecodeError" "Expecting value: line 1 column 1 (char 0)"));
    reflexivity.
Defined.

Lemma login_body_not_an_object_witness :
  result_bind (bytes_decode (PyRuntime := Sample.runtime) (list_byte_of_string "[]"))
              (json_loads (PyRuntime := Sample.runtime))
  = Ok (PList [])
  /\ run (do_POST (rt := Sample.runtime) (Sample.login_request "2" "[]"))
     = completed [SendError 400
                    (Some "Bad Request: 'list' object has no attribute 'get'")].
Proof.
  split; [reflexivity|].
  apply (login_body_not_an_object (rt := Sample.runtime)
           (Sample.login_request "2" "[]") 2 (list_byte_of_string "[]") (PList []));
    try reflexivity.
  intros data H. discriminate H.
Defined.

Lemma module_list_reply_witness :
  In "siem" modules
  /\ status (run
               (do_GET (rt := Sample.runtime) Sample.clock (Sample.request_of "/api/v1/siem/" [] "")))
     = Some 200.
Proof.
  assert (Hin : In "siem" modules) by (unfold modules; cbn [In]; tauto).
  split; [exact Hin|].
  apply (module_list_reply (rt := Sample.runtime) Sample.clock
           (Sample.request_of "/api/v1/siem/" [] "") "siem" Hin).
  right. reflexivity.
Defined.

Lemma module_health_reply_witness :
  In "dark-web" modules
  /\ status (run
               (do_GET (rt := Sample.runtime) Sample.clock (Sample.request_of "/api/v1/dark-web/health" [] "")))
     = Some 200.
Proof.
  assert (Hin : In "dark-web" modules) by (unfold modules; cbn [In]; tauto).
  split; [exact Hin|].
  apply (module_health_reply (rt := Sample.runtime) Sample.clock
           (Sample.request_of "/api/v1/dark-web/health" [] "") "dark-web" Hin).
  reflexivity.
Defined.

Lemma unrouted_not_found_witness :
  is_get_route "/api/v1/unknown-module" = false
  /\ status (handle_request (rt := Sample.runtime) Sample.clock GET
               (Sample.request_of "/api/v1/unknown-module?page=2" [] ""))
     = Some 404
  /\ status (handle_request (rt := Sample.runtime) Sample.clock POST
               (Sample.request_of "/api/v1/auth/logout" [] ""))
     = Some 404.
Proof.
  destruct (unrouted_not_found (rt := Sample.runtime) Sample.clock
              (Sample.request_of "/api/v1/unknown-module?page=2" [] ""))
    as [Hget _].
  destruct (unrouted_not_found (rt := Sample.runtime) Sample.clock
              (Sample.request_of "/api/v1/auth/logout" [] ""))
    as [_ Hpost].
  split; [reflexivity|]. split.
  - apply (Hget "/api/v1/unknown-module"); reflexivity.
  - apply Hpost. discriminate.
Defined.

Lemma ok_reply_headers_witness :
  status (handle_request (rt := Sample.runtime) Sample.clock GET
            (Sample.request_of "/health" [] "")) = Some 200
  /\ header (handle_request (rt := Sample.runtime) Sample.clock GET
               (Sample.request_of "/health" [] "")) "Content-Type"
     = Some "application/json".
Proof.
  split; [reflexivity|].
  apply (ok_reply_headers (rt := Sample.runtime) Sample.clock GET
           (Sample.request_of "/health" [] "")).
  reflexivity.
Defined.

(** ** Where the code departs from the specification *)

(** C4 as the specification has it fails at any OPTIONS request: the
    status is 200 and no [Content-Type] header is sent. *)
Lemma preflight_has_no_content_type :
  status (handle_request (rt := Sample.runtime) Sample.clock OPTIONS
            (Sample.request_of "/api/v1/siem" [] "")) = Some 200
  /\ header (handle_request (rt := Sample.runtime) Sample.clock OPTIONS
               (Sample.request_of "/api/v1/siem" [] "")) "Content-Type" = None.
Proof. split; reflexivity. Qed.

(** C6 as the specification has it fails at the target [/health#top]:
    with the query string removed it is still [/health#top], which is no
    route, and the response is the 200 of the health check, because
    [urlparse] cuts the fragment off as well. *)
Lemma fragment_target_is_answered :
  path_without_query "/health#top" = "/health#top"
  /\ is_get_route (path_without_query "/health#top") = false
  /\ handle_request (rt := Sample.runtime) Sample.clock GET
       (Sample.request_of "/health#top" [] "")
     = completed (json_reply (health_response Sample.clock))
  /\ status (handle_request (rt := Sample.runtime) Sample.clock GET
               (Sample.request_of "/health#top" [] "")) = Some 200.
Proof. repeat split. Qed.

(** Other targets the parse maps onto a route: the parameters of the last
    segment, and an absolute target with scheme and authority. *)
Example parameters_are_cut_off :
  urlparse_path (rt := Sample.runtime) "/api/v1/siem/health;v=2" = Ok "/api/v1/siem/health".
Proof. reflexivity. Qed.

Example absolute_target_is_routed :
  handle_request (rt := Sample.runtime) Sample.clock GET
    (Sample.request_of "http://localhost:8080/api/v1/health?probe=1" [] "")
  = completed (json_reply (health_response Sample.clock)).
Proof. reflexivity. Qed.

(** [urlparse] itself raises on an authority with an unmatched bracket,
    and [do_GET] calls it unguarded. *)
Example unmatched_bracket_raises :
  handle_request (rt := Sample.runtime) Sample.clock GET
    (Sample.request_of "http://[/health" [] "")
  = escaped (Exn "ValueError" "Invalid IPv6 URL").
Proof. reflexivity. Qed.

(** The header is found whatever the case of its name, and [int] reads
    it as Python does. *)
Example content_length_lookup :
  py_int (rt := Sample.runtime)
    (headers_get [("Host", "localhost"); ("content-length", " 1_0 ")] "Content-Length")
  = Ok 10.
Proof. reflexivity. Qed.

(** With rejected credentials the status is still 200. *)
Example rejected_credentials :
  handle_request (rt := Sample.runtime) Sample.clock POST
    (Sample.login_request "31" (Sample.credentials_text "x" "y"))
  = completed (json_reply login_failure).
Proof. reflexivity. Qed.

(** * Further properties of the handlers *)

(** ** Strings *)

Lemma str_filter_all (p : ascii -> bool) (s : string) :
  str_all p s = true -> str_filter p s = s.
Proof.
  induction s as [|c s IH]; cbn [str_all str_filter]; [reflexivity|].
  intros H. apply andb_true_iff in H as [Hc Hs].
  now rewrite Hc, IH.
Qed.

Lemma str_all_app (p : ascii -> bool) (s t : string) :
  str_all p (s ++ t) = str_all p s && str_all p t.
Proof.
  induction s as [|c s IH]; cbn [append str_all]; [reflexivity|].
  now rewrite IH, andb_assoc.
Qed.

Lemma contains_false (c : ascii) (s : string) :
  str_all (fun a => negb (Ascii.eqb a c)) s = true -> contains c s = false.
Proof.
  induction s as [|a s IH]; cbn [str_all contains]; [reflexivity|].
  intros H. apply andb_true_iff in H as [Ha Hs].
  apply negb_true_iff in Ha. now rewrite Ha, IH.
Qed.

(** Cutting at a character that does not occur keeps the text. *)
Lemma cut_at_absent (c : ascii) (s : string) :
  str_all (fun a => negb (Ascii.eqb a c)) s = true -> cut_at c s = s.
Proof.
  intros H. unfold cut_at.
  assert (Hfind : str_find c s = None).
  { induction s as [|a s IH]; cbn [str_all str_find] in *; [reflexivity|].
    apply andb_true_iff in H as [Ha Hs]. apply negb_true_iff in Ha.
    now rewrite Ha, IH. }
  now rewrite Hfind.
Qed.

Lemma str_find_app (c : ascii) (s u : string) :
  str_all (fun a => negb (Ascii.eqb a c)) s = true ->
  str_find c (s ++ u) = option_map (Nat.add (String.length s)) (str_find c u).
Proof.
  induction s as [|a s IH]; cbn [append str_all str_find String.length]; intros H.
  - now destruct (str_find c u).
  - apply andb_true_iff in H as [Ha Hs]. apply negb_true_iff in Ha.
    rewrite Ha, (IH Hs). now destruct (str_find c u).
Qed.

Lemma str_take_app (s u : string) (i : nat) :
  str_take (String.length s + i) (s ++ u) = s ++ str_take i u.
Proof.
  induction s as [|a s IH]; cbn [append String.length Nat.add str_take].
  - reflexivity.
  - now rewrite IH.
Qed.

(** Cutting a text at [c] behind a prefix free of [c] cuts the rest. *)
Lemma cut_at_app (c : ascii) (s u : string) :
  str_all (fun a => negb (Ascii.eqb a c)) s = true ->
  cut_at c (s ++ u) = s ++ cut_at c u.
Proof.
  intros H. unfold cut_at. rewrite (str_find_app c s u H).
  destruct (str_find c u) as [i|]; cbn [option_map]; [|reflexivity].
  apply str_take_app.
Qed.

Lemma cut_at_head (c : ascii) (t : string) : cut_at c (String c t) = EmptyString.
Proof. unfold cut_at. cbn [str_find]. now rewrite Ascii.eqb_refl. Qed.

Lemma cut_at_skip (c d : ascii) (t : string) :
  Ascii.eqb d c = false -> cut_at c (String d t) = String d (cut_at c t).
Proof.
  intros H. unfold cut_at. cbn [str_find]. rewrite H.
  now destruct (str_find c t).
Qed.

Lemma append_empty_r (s : string) : s ++ EmptyString = s.
Proof. induction s as [|a s IH]; cbn [append]; [reflexivity | now rewrite IH]. Qed.

(** A text free of the three path-ending characters is free of each. *)
Lemma free_of_path_end (s : string) (c : ascii) :
  is_path_end c = true ->
  str_all (fun a => negb (is_path_end a)) s = true ->
  str_all (fun a => negb (Ascii.eqb a c)) s = true.
Proof.
  intros Hc. induction s as [|a s IH]; cbn [str_all]; [reflexivity|].
  intros H. apply andb_true_iff in H as [Ha Hs].
  rewrite (IH Hs), andb_true_r.
  apply negb_true_iff. apply negb_true_iff in Ha.
  destruct (Ascii.eqb a c) eqn:E; [|reflexivity].
  apply Ascii.eqb_eq in E. subst a. congruence.
Qed.

(** ** [urlparse] on an origin-form target *)

Section OriginForm.
Context {rt : PyRuntime}.

(** On an origin-form target [urlparse] finds no scheme and no
    authority and raises nothing: the path is the target cut at its
    fragment, then at its query, then at the parameters of its last
    segment. *)
Lemma urlparse_path_origin_form (target : string) :
  origin_form target = true ->
  urlparse_path target =
  Ok (let url := cut_at "?" (cut_at "#" target) in
      if contains ";" url then splitparams url else url).
Proof.
  destruct target as [|c0 rest]; [discriminate|].
  unfold origin_form. intros H.
  apply andb_true_iff in H as [H Hsafe].
  apply andb_true_iff in H as [Hc0 Hc1].
  apply Ascii.eqb_eq in Hc0. subst c0.
  unfold urlparse_path, urlsplit.
  cbn [str_lstrip]. change (is_c0_control_or_space "/") with false. cbv iota.
  rewrite (str_filter_all _ _ Hsafe).
  assert (Hscheme : split_scheme (String "/" rest) = (EmptyString, String "/" rest)).
  { unfold split_scheme.
    destruct (str_find ":" (String "/" rest)) as [[|i]|]; reflexivity. }
  rewrite Hscheme.
  assert (Hnet : String.eqb (str_take 2 (String "/" rest)) "//" = false).
  { destruct rest as [|c1 rest']; [reflexivity|].
    cbn [str_take String.eqb]. apply negb_true_iff in Hc1.
    rewrite Hc1. now rewrite Ascii.eqb_refl. }
  rewrite Hnet. cbn [result_bind].
  rewrite String.eqb_refl. cbn [orb result_bind existsb uses_params].
  rewrite String.eqb_refl. cbn [orb andb].
  unfold cut_at. cbv zeta. now destruct (contains _ _).
Qed.

End OriginForm.

Lemma origin_form_prefix (p u : string) :
  p <> EmptyString -> origin_form (p ++ u) = true -> origin_form p = true.
Proof.
  destruct p as [|c0 p']; [congruence|]. intros _.
  unfold origin_form. cbn [append].
  intros H. apply andb_true_iff in H as [H Hsafe].
  apply andb_true_iff in H as [Hc0 Hc1].
  rewrite Hc0. cbn [andb].
  change (String c0 (p' ++ u)) with (String c0 p' ++ u) in Hsafe.
  rewrite str_all_app in Hsafe. apply andb_true_iff in Hsafe as [Hp _].
  rewrite Hp, andb_true_r.
  destruct p' as [|c1 p'']; [reflexivity | exact Hc1].
Qed.

Section OriginFormPaths.
Context {rt : PyRuntime}.

(** A target in origin form with no query, fragment or parameters is
    its own path. *)
Lemma urlparse_path_plain (p : string) :
  origin_form p = true ->
  str_all (fun c => negb (is_path_end c)) p = true ->
  urlparse_path p = Ok p.
Proof.
  intros Hform Hfree.
  rewrite (urlparse_path_origin_form p Hform). cbv zeta.
  rewrite (cut_at_absent "#" p (free_of_path_end p "#" eq_refl Hfree)).
  rewrite (cut_at_absent "?" p (free_of_path_end p "?" eq_refl Hfree)).
  now rewrite (contains_false ";" p (free_of_path_end p ";" eq_refl Hfree)).
Qed.

(** The path of such a target followed by a query or a fragment. *)
Lemma urlparse_path_suffixed (p q : string) (d : ascii) :
  d = "?"%char \/ d = "#"%char ->
  origin_form (p ++ String d q) = true ->
  str_all (fun c => negb (is_path_end c)) p = true ->
  urlparse_path (p ++ String d q) = Ok p.
Proof.
  intros Hd Hform Hfree.
  rewrite (urlparse_path_origin_form _ Hform). cbv zeta.
  pose proof (free_of_path_end p "#" eq_refl Hfree) as Hhash.
  pose proof (free_of_path_end p "?" eq_refl Hfree) as Hquery.
  assert (Hcut : cut_at "?" (cut_at "#" (p ++ String d q)) = p).
  { rewrite (cut_at_app "#" p _ Hhash).
    destruct Hd as [-> | ->].
    - rewrite (cut_at_skip "#" "?" q eq_refl).
      rewrite (cut_at_app "?" p _ Hquery), cut_at_head.
      apply append_empty_r.
    - rewrite cut_at_head, append_empty_r.
      apply (cut_at_absent "?" p Hquery). }
  rewrite Hcut.
  now rewrite (contains_false ";" p (free_of_path_end p ";" eq_refl Hfree)).
Qed.

(** What one run of [do_GET] can leave. *)
Lemma do_GET_shape (now : string) (self : request) :
  (exists e, urlparse_path (path self) = Exc e /\ run (do_GET now self) = escaped e)
  \/ (exists p, urlparse_path (path self) = Ok p
                /\ (run (do_GET now self) = completed (error_reply 404 None)
                    \/ exists v, run (do_GET now self) = completed (json_reply v))).
Proof.
  destruct (urlparse_path (path self)) as [p|e] eqn:Hp.
  - right. exists p. split; [reflexivity|].
    rewrite (do_GET_parsed now self p Hp).
    destruct (_ || _); [right; eexists; reflexivity|].
    unfold run.
    destruct (module_endpoints_shape p modules) as [-> | [v ->]].
    + now left.
    + right. now exists v.
  - left. exists e. split; [reflexivity|].
    apply (do_GET_unparsed now self e Hp).
Qed.

(** What the guarded block of [do_POST] can leave. *)
Lemma login_outcome_shape (decoded : result pyvalue) :
  (exists m, login_outcome decoded = completed (error_reply 400 (Some m)))
  \/ (exists v, login_outcome decoded = completed (json_reply v)).
Proof.
  destruct decoded as [v|e]; [destruct v|]; cbn [login_outcome];
    try (left; eexists; reflexivity).
  right. eexists; reflexivity.
Qed.

End OriginFormPaths.

(** ** [int] on a decimal numeral *)

Lemma scan_digits_uint (d : Decimal.uint) (after_digit : bool) (acc n : nat) :
  after_digit = true \/ d <> Decimal.Nil ->
  scan_digits (NilEmpty.string_of_uint d) after_digit (Z.of_nat acc) n
  = Some (Z.of_nat (Nat.of_uint_acc d acc),
          (n + String.length (NilEmpty.string_of_uint d))%nat,
          EmptyString).
Proof.
  revert after_digit acc n.
  induction d as [|d IH|d IH|d IH|d IH|d IH|d IH|d IH|d IH|d IH|d IH];
    intros after_digit acc n H;
    cbn [NilEmpty.string_of_uint scan_digits Nat.of_uint_acc String.length].
  1: { destruct H as [-> | H]; [|congruence]. now rewrite Nat.add_0_r. }
  all: match goal with
       | |- context [is_digit ?c] => change (is_digit c) with true
       end; cbv iota;
       match goal with
       | |- scan_digits _ true ?z _ = Some (Z.of_nat (Nat.of_uint_acc _ ?a), _, _) =>
           replace z with (Z.of_nat a)
             by (rewrite ?Nat.tail_mul_spec;
                 match goal with
                 | |- context [code ?c] =>
                     let v := eval vm_compute in (code c) in
                     change (code c) with v
                 end; lia)
       end;
       rewrite (IH true _ _ (or_introl eq_refl));
       now rewrite Nat.add_succ_r.
Qed.

Lemma digit_not_space_or_sign (c : ascii) :
  is_digit c = true ->
  is_int_space c = false /\ Ascii.eqb c "-" = false /\ Ascii.eqb c "+" = false.
Proof.
  destruct c as [[] [] [] [] [] [] [] []]; intros H; vm_compute in H;
    solve [discriminate H | repeat split].
Qed.

Section IntOfDecimal.
Context {rt : PyRuntime}.

(** [int] on a text that is digits (with single underscores) from its
    start to its end, of at most 640 digits. *)
Lemma int_of_str_digits (s : string) (v : Z) (digits : nat) :
  scan_digits s false 0 0 = Some (v, digits, EmptyString) ->
  (digits <= 640)%nat ->
  int_of_str s = Ok v.
Proof.
  intros Hscan Hlen.
  destruct s as [|c r]; [discriminate Hscan|].
  assert (Hc : is_digit c = true).
  { cbn [scan_digits] in Hscan. destruct (is_digit c); [reflexivity|].
    destruct (Ascii.eqb c "_"); discriminate Hscan. }
  destruct (digit_not_space_or_sign c Hc) as (Hspace & Hminus & Hplus).
  unfold int_of_str. cbn [str_lstrip]. rewrite Hspace.
  assert (Hsign :
            match String c r with
            | String "-" r0 => (true, r0)
            | String "+" r0 => (false, r0)
            | _ => (false, String c r)
            end = (false, String c r)).
  { clear -Hminus Hplus.
    destruct c as [[] [] [] [] [] [] [] []]; try reflexivity;
      vm_compute in Hminus, Hplus; discriminate. }
  cbv zeta. rewrite Hsign, Hscan.
  apply Nat.ltb_ge in Hlen. rewrite Hlen, andb_false_r.
  reflexivity.
Qed.

Lemma scan_digits_decimal (n : nat) :
  scan_digits (decimal_of_nat n) false 0 0
  = Some (Z.of_nat n, String.length (decimal_of_nat n), EmptyString).
Proof.
  unfold decimal_of_nat.
  pose proof (DecimalNat.Unsigned.of_to n) as Hn. revert Hn.
  destruct (Nat.to_uint n) as [|d|d|d|d|d|d|d|d|d|d]; intros Hn.
  1: { change (Nat.of_uint Decimal.Nil) with 0%nat in Hn. subst n. reflexivity. }
  all: rewrite <- Hn;
       match goal with
       | |- scan_digits (NilZero.string_of_uint ?u) _ _ _ = _ =>
           change (NilZero.string_of_uint u) with (NilEmpty.string_of_uint u);
           assert (Hu : u <> Decimal.Nil) by discriminate;
           pose proof (scan_digits_uint u false 0 0 (or_intror Hu)) as Hscan
       end;
       change (Z.of_nat 0) with 0 in Hscan;
       rewrite Hscan; unfold Nat.of_uint; cbn [Nat.add]; reflexivity.
Qed.

(** [int] reads the decimal numeral of [n] back as [n]. *)
Lemma int_of_str_decimal (n : nat) :
  (String.length (decimal_of_nat n) <= 640)%nat ->
  int_of_str (decimal_of_nat n) = Ok (Z.of_nat n).
Proof.
  intros Hlen.
  exact (int_of_str_digits _ _ _ (scan_digits_decimal n) Hlen).
Qed.

End IntOfDecimal.

(** ** Helper facts on the handlers *)

Lemma append_longer_differs (p s : string) :
  s <> EmptyString -> String.eqb (p ++ s) p = false.
Proof.
  intros Hs. apply String.eqb_neq. intros H.
  induction p as [|c p IH]; cbn [append] in H.
  - congruence.
  - injection H as H. exact (IH H).
Qed.

Lemma dict_get_absent (d : list (string * pyvalue)) (key : string) (default : pyvalue) :
  has_key d key = false -> dict_get d key default = default.
Proof.
  unfold has_key.
  induction d as [|[k v] d IH]; cbn [existsb dict_get fst]; [reflexivity|].
  intros H. apply orb_false_elim in H as [Hk Hd].
  now rewrite Hk, IH.
Qed.

(** The module loop answers for the first module of the list that the
    path matches, with its list reply or its health reply. *)
Lemma module_endpoints_find (p : string) (ms : list string) :
  module_endpoints p ms [] =
  match find (module_route p) ms with
  | None => (Ok tt, error_reply 404 None)
  | Some m =>
      if String.eqb p ("/api/v1/" ++ m) || String.eqb p ("/api/v1/" ++ m ++ "/")
      then (Ok tt, json_reply (module_response m))
      else (Ok tt, json_reply (module_health_response m))
  end.
Proof.
  induction ms as [|m ms IH]; cbn [module_endpoints find]; [reflexivity|].
  unfold module_route at 1.
  destruct (_ || _) eqn:Hlist; cbn [orb].
  - rewrite Hlist. reflexivity.
  - destruct (String.eqb p ("/api/v1/" ++ m ++ "/health")) eqn:Hhealth.
    + rewrite Hlist. reflexivity.
    + exact IH.
Qed.

(** No path matches the patterns of two different modules. *)
Lemma module_route_unique (p m1 m2 : string) :
  In m1 modules -> In m2 modules ->
  module_route p m1 = true -> module_route p m2 = true -> m1 = m2.
Proof.
  intros H1 H2 R1 R2.
  unfold module_route in R1.
  apply orb_true_iff in R1 as [R1 | R1]; [apply orb_true_iff in R1 as [R1 | R1]|];
    apply String.eqb_eq in R1; subst p;
    unfold modules in H1, H2; cbn [In] in H1, H2;
    repeat (destruct H1 as [<- | H1];
            [repeat (destruct H2 as [<- | H2];
                     [first [reflexivity | vm_compute in R2; discriminate R2]|]);
             destruct H2 |]);
    destruct H1.
Qed.

Lemma find_unique_permutation {A} (f : A -> bool) (l1 l2 : list A) :
  Permutation.Permutation l1 l2 ->
  (forall x y, In x l2 -> In y l2 -> f x = true -> f y = true -> x = y) ->
  find f l1 = find f l2.
Proof.
  intros Hperm Huniq.
  destruct (find f l1) as [a|] eqn:E1; destruct (find f l2) as [b|] eqn:E2.
  - apply find_some in E1 as [Ha Hfa]. apply find_some in E2 as [Hb Hfb].
    f_equal. apply Huniq; auto.
    apply (Permutation.Permutation_in _ Hperm Ha).
  - apply find_some in E1 as [Ha Hfa].
    pose proof (find_none _ _ E2 a (Permutation.Permutation_in _ Hperm Ha)).
    congruence.
  - apply find_some in E2 as [Hb Hfb].
    pose proof (find_none _ _ E1 b
                  (Permutation.Permutation_in _ (Permutation.Permutation_sym Hperm) Hb)).
    congruence.
  - reflexivity.
Qed.

Lemma headers_get_first (before after : list (string * string)) (k v name : string) :
  str_lower k = str_lower name ->
  (forall k' v', In (k', v') before -> str_lower k' <> str_lower name) ->
  headers_get (before ++ (k, v) :: after) name = Some v.
Proof.
  intros Hk Hbefore.
  induction before as [|[k' v'] before IH]; cbn [app headers_get].
  - now rewrite Hk, String.eqb_refl.
  - assert (Hne : String.eqb (str_lower k') (str_lower name) = false).
    { apply String.eqb_neq. apply (Hbefore k' v'). now left. }
    rewrite Hne. apply IH. intros k0 v0 Hin. apply (Hbefore k0 v0). now right.
Qed.

Section HandlerShapes.
Context {rt : PyRuntime}.

Lemma do_POST_shape (self : request) :
  (exists e, run (do_POST self) = escaped e)
  \/ run (do_POST self) = completed (error_reply 404 None)
  \/ (exists m, run (do_POST self) = completed (error_reply 400 (Some m)))
  \/ (exists v, run (do_POST self) = completed (json_reply v)).
Proof.
  rewrite do_POST_cases.
  destruct (String.eqb _ _); [|right; now left].
  destruct (py_int _) as [n|e]; [|left; now exists e].
  destruct (rfile_read self n) as [post_data|e]; [|left; now exists e].
  destruct (login_outcome_shape (result_bind (bytes_decode post_data) json_loads))
    as [[m ->] | [v ->]].
  - right; right; left. now exists m.
  - right; right; right. now exists v.
Qed.

End HandlerShapes.

(** ** Further properties *)

Section FurtherProperties.
Context {rt : PyRuntime}.

(** X1: a GET whose parsed path is /health or /api/v1/health is answered,
    whatever the headers and the body of the request, with the same
    object: status [operational], the clock reading as [timestamp], and
    both services [connected]. *)
Theorem health_reply (now : string) (self : request) (p : string) :
  urlparse_path (path self) = Ok p ->
  p = "/health" \/ p = "/api/v1/health" ->
  handle_request now GET self =
  completed (json_reply
    (PDict [("status", PStr "operational");
            ("timestamp", PStr now);
            ("services", PDict [("database", PStr "connected");
                                ("redis", PStr "connected")])])).
Proof.
  intros Hp Hhealth. unfold handle_request.
  rewrite (do_GET_parsed now self p Hp).
  destruct Hhealth as [-> | ->]; reflexivity.
Qed.

(** X2: [do_GET] reads nothing of the request but the path component of
    its target: a target in origin form made of a path free of [?], [#]
    and [;] followed by a query string or a fragment is answered exactly
    as the bare path is, whatever the two requests' headers and bodies. *)
Theorem get_ignores_query_and_fragment
    (now : string) (self1 self2 : request) (p q : string) (d : ascii) :
  path self1 = p ++ String d q ->
  path self2 = p ->
  d = "?"%char \/ d = "#"%char ->
  origin_form (path self1) = true ->
  str_all (fun c => negb (is_path_end c)) p = true ->
  handle_request now GET self1 = handle_request now GET self2.
Proof.
  intros H1 H2 Hd Hform Hfree. unfold handle_request.
  rewrite H1 in Hform.
  assert (Hp : p <> EmptyString).
  { intros ->. cbn [append] in Hform.
    destruct Hd as [-> | ->]; discriminate Hform. }
  pose proof (origin_form_prefix p _ Hp Hform) as Hform2.
  rewrite (do_GET_parsed now self1 p), (do_GET_parsed now self2 p).
  - reflexivity.
  - rewrite H2. now apply urlparse_path_plain.
  - rewrite H1. now apply urlparse_path_suffixed.
Qed.

(** X3: on a target in origin form [urlparse] raises nothing, so
    [do_GET] always gets to answer: the parse returns a path, and the
    first call of the handler is [send_response(200)] or
    [send_error(404)]. *)
Theorem get_origin_form_reaches_an_answer (now : string) (self : request) :
  origin_form (path self) = true ->
  (exists p, urlparse_path (path self) = Ok p)
  /\ (status (handle_request now GET self) = Some 200
      \/ status (handle_request now GET self) = Some 404).
Proof.
  intros Hform. unfold handle_request.
  destruct (do_GET_shape now self) as [(e & He & _) | (p & Hp & [-> | [v ->]])].
  - rewrite (urlparse_path_origin_form _ Hform) in He. discriminate He.
  - split; [now exists p | now right].
  - split; [now exists p | now left].
Qed.

(** X4: [do_POST] compares the raw target: the login path followed by
    anything at all (a query string, a slash, a fragment) is answered
    404, and the body is not read. *)
Theorem post_login_needs_exact_target (self : request) (suffix : string) :
  path self = "/api/v1/auth/login" ++ suffix ->
  suffix <> EmptyString ->
  run (do_POST self) = completed [SendError 404 None].
Proof.
  intros Hpath Hsuffix.
  rewrite do_POST_cases, Hpath. unfold login_path.
  now rewrite (append_longer_differs "/api/v1/auth/login" suffix Hsuffix).
Qed.

(** X5: a handler is left by an exception before it has made any call
    on the response exactly when one of the library calls that precede
    its first answer raises: [urlparse] in [do_GET], and [int] on the
    [Content-Length] header or [rfile.read] in [do_POST] on the login
    path.  [do_OPTIONS] calls nothing before [send_response]. *)
Theorem exceptions_before_any_call (now : string) (self : request) (e : exn) :
  (handle_request now GET self = escaped e
   <-> urlparse_path (path self) = Exc e)
  /\ (handle_request now POST self = escaped e
      <-> path self = "/api/v1/auth/login"
          /\ (py_int (headers_get (headers self) "Content-Length") = Exc e
              \/ exists content_length,
                   py_int (headers_get (headers self) "Content-Length") = Ok content_length
                   /\ rfile_read self content_length = Exc e))
  /\ (exists rest, sent (handle_request now OPTIONS self) = SendResponse 200 :: rest).
Proof.
  unfold handle_request. split; [|split; [|eexists; reflexivity]].
  - destruct (do_GET_shape now self)
      as [(e' & He & ->) | (p & Hp & [-> | [v ->]])]; rewrite ?He, ?Hp;
      unfold escaped, completed; split; intros H; try discriminate H;
      injection H as H; congruence.
  - rewrite do_POST_cases. unfold login_path.
    destruct (String.eqb (path self) "/api/v1/auth/login") eqn:Hpath.
    + apply String.eqb_eq in Hpath.
      destruct (py_int _) as [n|e1].
      * destruct (rfile_read self n) as [post_data|e2] eqn:Hread.
        -- destruct (login_outcome_shape
                       (result_bind (bytes_decode post_data) json_loads))
             as [[m ->] | [v ->]]; unfold escaped, completed;
             (split; [discriminate|]);
             intros (_ & [H | (n' & Hn & H)]); [discriminate H | | discriminate H |];
             injection Hn as <-; congruence.
        -- unfold escaped. split.
           ++ intros [= ->]. split; [exact Hpath|]. right. now exists n.
           ++ intros (_ & [H | (n' & Hn & H)]); [discriminate H|].
              injection Hn as <-. congruence.
      * unfold escaped. split.
        -- intros [= ->]. split; [exact Hpath|]. now left.
        -- intros (_ & [H | (n' & Hn & _)]); [congruence | discriminate Hn].
    + apply String.eqb_neq in Hpath. unfold escaped, completed.
      split; [discriminate|]. intros [H _]. contradiction.
Qed.

(** X6: as long as every call on the connection returns, a handler
    leaves either nothing sent and an exception, or the calls of exactly
    one response in order: a single [send_error], or [send_response], the
    headers, [end_headers] and at most one write.  In particular the
    guarded block of [do_POST] raises only before [send_response]. *)
Theorem one_response_or_none (now : string) (command : method) (self : request) :
  match raised (handle_request now command self) with
  | Some _ => sent (handle_request now command self) = []
  | None => well_formed (sent (handle_request now command self)) = true
  end.
Proof.
  unfold handle_request. destruct command.
  - destruct (do_GET_shape now self)
      as [(e & _ & ->) | (p & _ & [-> | [v ->]])]; reflexivity.
  - destruct (do_POST_shape self) as [[e ->] | [-> | [[m ->] | [v ->]]]]; reflexivity.
  - reflexivity.
Qed.

(** X7: the status codes of each method: [do_GET] answers 200 or 404,
    [do_POST] 200, 400 or 404, [do_OPTIONS] 200; no status at all is left
    only when the handler raised. *)
Theorem status_by_method (now : string) (command : method) (self : request) :
  In (status (handle_request now command self))
     match command with
     | GET => [None; Some 200; Some 404]
     | POST => [None; Some 200; Some 400; Some 404]
     | OPTIONS => [Some 200]
     end
  /\ (status (handle_request now command self) = None
      -> exists e, raised (handle_request now command self) = Some e).
Proof.
  unfold handle_request. destruct command.
  - destruct (do_GET_shape now self)
      as [(e & _ & ->) | (p & _ & [-> | [v ->]])]; cbn; split;
      try tauto; try discriminate. intros _. now exists e.
  - destruct (do_POST_shape self) as [[e ->] | [-> | [[m ->] | [v ->]]]]; cbn; split;
      try tauto; try discriminate. intros _. now exists e.
  - cbn. split; [tauto | discriminate].
Qed.

End FurtherProperties.

Section FurtherLoginProperties.
Context {rt : PyRuntime}.

(** X8: [do_POST] takes the length from the first header line named
    [Content-Length] in any spelling of upper and lower case: a request
    with more header lines, before and after that one, is answered exactly
    as the request that carries that line alone. *)
Theorem first_content_length_is_used
    (self1 self2 : request) (before after : list (string * string)) (k v : string) :
  path self1 = path self2 ->
  (forall n, rfile_read self1 n = rfile_read self2 n) ->
  headers self1 = (before ++ (k, v) :: after)%list ->
  str_lower k = "content-length" ->
  (forall k' v', In (k', v') before -> str_lower k' <> "content-length") ->
  headers self2 = [("Content-Length", v)] ->
  run (do_POST self1) = run (do_POST self2).
Proof.
  intros Hpath Hread H1 Hk Hbefore H2.
  rewrite !do_POST_cases, Hpath, H1, H2.
  rewrite (headers_get_first before after k v "Content-Length" Hk Hbefore).
  change (headers_get [("Content-Length", v)] "Content-Length") with (Some v).
  destruct (String.eqb _ _); [|reflexivity].
  destruct (py_int _) as [n|e]; [|reflexivity].
  now rewrite (Hread n).
Qed.

(** X9: a decoded object that lacks the [email] key or the [password]
    key is answered like any wrong credentials: status 200 and the
    [Invalid credentials] object, never an error status. *)
Theorem missing_credentials_key_rejected
    (self : request) (content_length : Z) (post_data : list byte)
    (data : list (string * pyvalue)) :
  path self = "/api/v1/auth/login" ->
  py_int (headers_get (headers self) "Content-Length") = Ok content_length ->
  rfile_read self content_length = Ok post_data ->
  result_bind (bytes_decode post_data) json_loads = Ok (PDict data) ->
  has_key data "email" = false \/ has_key data "password" = false ->
  run (do_POST self) =
  completed (json_reply (PDict [("success", PBool false);
                                ("error", PStr "Invalid credentials")]))
  /\ status (run (do_POST self)) = Some 200.
Proof.
  intros Hpath Hlen Hread Hdata Hkey.
  rewrite (do_POST_login self content_length post_data Hpath Hlen Hread), Hdata.
  cbn [login_outcome]. unfold acceptedb.
  destruct Hkey as [Hkey | Hkey];
    rewrite (dict_get_absent data _ (PStr "") Hkey); cbn [py_eq_str String.eqb];
    rewrite ?andb_false_r; split; reflexivity.
Qed.


(** X11: what [do_POST] does depends on the target, on the
    [Content-Length] header and on what the read returns, and on nothing
    else of the request: no other header (a content type, a credential)
    changes the outcome. *)
Theorem post_reads_length_and_body_only (self1 self2 : request) :
  path self1 = path self2 ->
  headers_get (headers self1) "Content-Length"
  = headers_get (headers self2) "Content-Length" ->
  (forall n, rfile_read self1 n = rfile_read self2 n) ->
  run (do_POST self1) = run (do_POST self2).
Proof.
  intros Hpath Hlen Hread.
  rewrite !do_POST_cases, Hpath, Hlen.
  destruct (String.eqb _ _); [|reflexivity].
  destruct (py_int _) as [n|e]; [|reflexivity].
  now rewrite (Hread n).
Qed.

(** X12: the value of [port] on the first line of [run_server]: 8080
    when [PORT] is not in the environment, and the number [n] when [PORT]
    is the decimal numeral of [n].  (What binding to that port then does
    is the next line's and is not part of this.) *)
Theorem run_server_port_of_environ (environ : list (string * string)) :
  (environ_get environ "PORT" = None -> run_server_port environ = Ok 8080)
  /\ (forall n : nat,
        environ_get environ "PORT" = Some (decimal_of_nat n) ->
        (String.length (decimal_of_nat n) <= 640)%nat ->
        run_server_port environ = Ok (Z.of_nat n)).
Proof.
  unfold run_server_port. split.
  - now intros ->.
  - intros n -> Hdigits. now apply int_of_str_decimal.
Qed.

End FurtherLoginProperties.

(** X13: no path is claimed by two modules, so the order of the module
    list decides nothing: the loop of [do_GET] run over any rearrangement
    of the list leaves the same response for every path. *)
Theorem module_order_is_irrelevant (p : string) (ms : list string) :
  Permutation.Permutation ms modules ->
  run (module_endpoints p ms) = run (module_endpoints p modules).
Proof.
  intros Hperm. unfold run.
  rewrite (module_endpoints_find p ms), (module_endpoints_find p modules).
  rewrite (find_unique_permutation (module_route p) ms modules Hperm).
  - reflexivity.
  - intros x y Hx Hy. apply module_route_unique; assumption.
Qed.

(** ** The further properties at sample requests *)

Lemma health_reply_witness :
  urlparse_path (rt := Sample.runtime) "/api/v1/health?verbose=1" = Ok "/api/v1/health"
  /\ status (handle_request (rt := Sample.runtime) Sample.clock GET
               (Sample.request_of "/api/v1/health?verbose=1" [] "")) = Some 200.
Proof.
  split; [reflexivity|].
  rewrite (health_reply (rt := Sample.runtime) Sample.clock
             (Sample.request_of "/api/v1/health?verbose=1" [] "")
             "/api/v1/health" eq_refl (or_intror eq_refl)).
  reflexivity.
Defined.

Lemma get_ignores_query_and_fragment_witness :
  origin_form "/api/v1/siem?limit=5" = true
  /\ handle_request (rt := Sample.runtime) Sample.clock GET
       (Sample.request_of "/api/v1/siem?limit=5" [("Accept", "text/html")] "ignored")
     = handle_request (rt := Sample.runtime) Sample.clock GET
         (Sample.request_of "/api/v1/siem" [] "").
Proof.
  split; [reflexivity|].
  apply (get_ignores_query_and_fragment (rt := Sample.runtime) Sample.clock
           (Sample.request_of "/api/v1/siem?limit=5" [("Accept", "text/html")] "ignored")
           (Sample.request_of "/api/v1/siem" [] "")
           "/api/v1/siem" "limit=5" "?");
    first [reflexivity | left; reflexivity].
Defined.

Lemma get_origin_form_reaches_an_answer_witness :
  origin_form "/[not-a-route]?x#y" = true
  /\ status (handle_request (rt := Sample.runtime) Sample.clock GET
               (Sample.request_of "/[not-a-route]?x#y" [] "")) = Some 404.
Proof.
  split; [reflexivity|].
  destruct (get_origin_form_reaches_an_answer (rt := Sample.runtime) Sample.clock
              (Sample.request_of "/[not-a-route]?x#y" [] "") eq_refl)
    as [_ [H | H]].
  - discriminate H.
  - exact H.
Defined.

Lemma post_login_needs_exact_target_witness :
  run (do_POST (rt := Sample.runtime)
         (Sample.request_of "/api/v1/auth/login?next=/" [("Content-Length", "2")] "{}"))
  = completed [SendError 404 None].
Proof.
  apply (post_login_needs_exact_target (rt := Sample.runtime)
           (Sample.request_of "/api/v1/auth/login?next=/" [("Content-Length", "2")] "{}")
           "?next=/").
  - reflexivity.
  - discriminate.
Defined.

Lemma status_by_method_witness :
  status (handle_request (rt := Sample.runtime) Sample.clock POST
            (Sample.request_of "/api/v1/auth/login" [] "{}")) = None
  /\ exists e, raised (handle_request (rt := Sample.runtime) Sample.clock POST
                         (Sample.request_of "/api/v1/auth/login" [] "{}")) = Some e.
Proof.
  split; [reflexivity|].
  apply (status_by_method (rt := Sample.runtime) Sample.clock POST
           (Sample.request_of "/api/v1/auth/login" [] "{}")).
  reflexivity.
Defined.

Lemma first_content_length_is_used_witness :
  run (do_POST (rt := Sample.runtime)
         (Sample.request_of "/api/v1/auth/login"
            [("Host", "localhost"); ("CONTENT-LENGTH", "2"); ("Content-Length", "7")]
            "[]"))
  = run (do_POST (rt := Sample.runtime) (Sample.login_request "2" "[]")).
Proof.
  apply (first_content_length_is_used (rt := Sample.runtime)
           (Sample.request_of "/api/v1/auth/login"
              [("Host", "localhost"); ("CONTENT-LENGTH", "2"); ("Content-Length", "7")]
              "[]")
           (Sample.login_request "2" "[]")
           [("Host", "localhost")] [("Content-Length", "7")] "CONTENT-LENGTH" "2");
    try reflexivity.
  intros k' v' [[= <- <-] | []]. discriminate.
Defined.

Lemma missing_credentials_key_rejected_witness :
  has_key [] "email" = false
  /\ status (run (do_POST (rt := Sample.runtime) (Sample.login_request "2" "{}")))
     = Some 200.
Proof.
  split; [reflexivity|].
  apply (missing_credentials_key_rejected (rt := Sample.runtime)
           (Sample.login_request "2" "{}") 2 (list_byte_of_string "{}") []);
    first [reflexivity | left; reflexivity].
Defined.


Lemma post_reads_length_and_body_only_witness :
  run (do_POST (rt := Sample.runtime)
         (Sample.request_of "/api/v1/auth/login"
            [("Content-Type", "text/plain"); ("Content-Length", "2")] "[]"))
  = run (do_POST (rt := Sample.runtime) (Sample.login_request "2" "[]")).
Proof.
  apply (post_reads_length_and_body_only (rt := Sample.runtime)); reflexivity.
Defined.

Lemma run_server_port_of_environ_witness :
  run_server_port (rt := Sample.runtime) [("HOME", "/root")] = Ok 8080
  /\ run_server_port (rt := Sample.runtime) [("HOME", "/root"); ("PORT", "3000")]
     = Ok 3000.
Proof.
  split.
  - apply (run_server_port_of_environ (rt := Sample.runtime) [("HOME", "/root")]).
    reflexivity.
  - apply (proj2 (run_server_port_of_environ (rt := Sample.runtime)
                    [("HOME", "/root"); ("PORT", "3000")]) 3000%nat).
    + reflexivity.
    + vm_compute. lia.
Defined.

Lemma module_order_is_irrelevant_witness :
  run (module_endpoints "/api/v1/siem/health" (rev modules))
  = run (module_endpoints "/api/v1/siem/health" modules).
Proof.
  apply (module_order_is_irrelevant "/api/v1/siem/health" (rev modules)).
  apply Permutation.Permutation_sym, Permutation.Permutation_rev.
Defined.

(** * The process state and the history of requests *)


Section ProcessState.
Context {rt : PyRuntime}.










End ProcessState.


(** The memo at work: a second GET of the same target is a hit and the
    memo stays as it is; a target on which [urlsplit] raises adds nothing. *)
Example memo_hit_and_raise :
  process_after (rt := Sample.runtime)
    [(Sample.clock, GET, Sample.request_of "/health" [] "");
     (Sample.clock, POST, Sample.login_request "2" "{}");
     (Sample.clock, GET, Sample.request_of "http://[/health" [] "");
     (Sample.clock, GET, Sample.request_of "/health" [] "")]
  = {| urlsplit_cache := [("/health", (EmptyString, EmptyString, "/health"))] |}.
Proof. reflexivity. Qed.
